(** * SonarQube step implementer of tssc: a shallow embedding

    Source: [src/tssc/step_implementers/static_code_analysis/sonarqube.py].

    The module is a Python class [SonarQube(StepImplementer)] with two
    methods of its own, [_validate_runtime_step_config] and [_run_step].
    Python dictionaries are finite maps, configuration values are the two
    kinds of value the module's own tables hold ([None] and [str]),
    exceptions are an error result, and the one effect of the module, the
    call of the [sonar-scanner] executable through [sh], is recorded in a
    log of argument lists that is threaded through a small state and error
    monad. *)

From Stdlib Require Import ZArith List Bool Ascii.
From stdpp Require Import base option list strings gmap.

Local Open Scope Z_scope.

(** ** Python values and exceptions *)

(** A configuration value or a field of a step result: [None] or a [str]. *)
Inductive value : Type :=
| VNone
| VStr (s : string).

#[global] Instance value_eq_dec : EqDecision value.
Proof. solve_decision. Defined.

(** [bool(v)]: [None] and the empty string are false. *)
Definition truthy (v : value) : bool :=
  match v with
  | VNone => false
  | VStr EmptyString => false
  | VStr (String _ _) => true
  end.

(** The exceptions the module raises or lets through.  [ErrorReturnCode] is
    [sh.ErrorReturnCode]: the exit status of the child process and the text
    [str(error)] that [sh] builds from the command and its captured output.
    [RuntimeError msg cause] is [raise RuntimeError(msg) from cause]. *)
Inductive exn : Type :=
| AssertionError (msg : string)
| ValueError (msg : string)
| TypeError
| KeyError (key : string)
| ErrorReturnCode (exit_code : Z) (detail : string)
| RuntimeError (msg : string) (cause : exn).

(** The outcome of evaluating a Python expression or statement. *)
Inductive outcome (A : Type) : Type :=
| Return (a : A)
| Raise (e : exn).

Arguments Return {A} a.
Arguments Raise {A} e.

#[global] Instance outcome_ret : MRet outcome := @Return.

#[global] Instance outcome_bind : MBind outcome := fun A B k r =>
  match r with
  | Return a => k a
  | Raise e => Raise e
  end.

(** [s + v] for a [str] on the left: concatenation, or [TypeError] when the
    right operand is not a [str]. *)
Definition str_add (s : string) (v : value) : outcome string :=
  match v with
  | VStr t => Return (s +:+ t)
  | VNone => Raise TypeError
  end.

(** ** The effect monad: a log of child-process invocations *)

(** One entry per call of [sh.sonar_scanner], holding its positional
    arguments, oldest first. *)
Definition invocations : Type := list (list string).

Definition M (A : Type) : Type := invocations -> outcome A * invocations.

Definition raise {A} (e : exn) : M A := fun log => (Raise e, log).

Definition lift {A} (r : outcome A) : M A := fun log => (r, log).

#[global] Instance M_ret : MRet M := fun A a log => (Return a, log).

#[global] Instance M_bind : MBind M := fun A B k m log =>
  match m log with
  | (Return a, log') => k a log'
  | (Raise e, log') => (Raise e, log')
  end.

(** [try: body / except <class> as error: handler]; [catches] tells whether
    the exception is an instance of the class. *)
Definition try_except {A} (body : M A) (catches : exn -> bool)
    (handler : exn -> M A) : M A :=
  fun log =>
    match body log with
    | (Return a, log') => (Return a, log')
    | (Raise e, log') =>
        if catches e then handler e log' else (Raise e, log')
    end.

(** ** The objects the step works on *)

(** [self]: the state of the step implementer that the methods read. *)
Record StepImplementer : Type := {
  step_config : gmap string value;
  step_results : gmap string (gmap string value);
  working_dir : string
}.

(** The operating system as the step sees it: [os.path.exists], and the
    [sonar-scanner] executable, which for an argument list gives an exit
    status and the text [sh] puts in its exception when the status is not
    zero. *)
Record OS : Type := {
  path_exists : string -> bool;
  sonar_scanner : list string -> Z * string
}.

(** [key in d] for a dict. *)
Definition contains {V} (d : gmap string V) (key : string) : bool :=
  match d !! key with
  | Some _ => true
  | None => false
  end.

(** [bool(d)] for a dict: the empty dict is false. *)
Definition dict_truthy {V} (d : gmap string V) : bool :=
  negb (bool_decide (dom d = ∅)).

(** [d.get(key)]: [None] when the key is absent. *)
Definition dict_get (d : gmap string value) (key : string) : value :=
  default VNone (d !! key).

(** [d[key]]: [KeyError] when the key is absent. *)
Definition dict_index (d : gmap string value) (key : string) : outcome value :=
  match d !! key with
  | Some v => Return v
  | None => Raise (KeyError key)
  end.

(** Iterating over a dict literal yields its keys in the order written. *)
Definition keys {V} (d : list (string * V)) : list string := map fst d.

(** Module constants. *)
Definition DEFAULT_CONFIG : list (string * value) :=
  [("properties", VStr "./sonar-project.properties")].

Definition AUTHENTICATION_CONFIG : list (string * value) :=
  [("user", VNone); ("password", VNone)].

Definition REQUIRED_CONFIG_KEYS : list string :=
  ["url"; "application-name"; "service-name"].

Definition step_implementer_config_defaults : list (string * value) :=
  DEFAULT_CONFIG.

Definition required_runtime_step_config_keys : list string :=
  REQUIRED_CONFIG_KEYS.

(** ** The base class [StepImplementer] *)

(** Modelled from the spec: [StepImplementer.get_config_value], the
    configuration read interface [getConfigValue(key) -> value | absent];
    an absent key reads as [None]. *)
Definition get_config_value (self : StepImplementer) (key : string) : value :=
  dict_get (step_config self) key.

(** Modelled from the spec: [StepImplementer.has_config_value],
    [hasConfigValue(keySet) -> bool]: all the given keys are present in the
    merged configuration. *)
Definition has_config_value (self : StepImplementer) (ks : list string) : bool :=
  forallb (contains (step_config self)) ks.

(** Modelled from the spec: [StepImplementer.get_step_results], the
    prior-result read interface [getStepResult(stepName) -> record | absent]. *)
Definition get_step_results (self : StepImplementer) (step_name : string)
    : option (gmap string value) :=
  step_results self !! step_name.

(** Modelled from the spec: [StepImplementer.get_working_dir],
    [getWorkingDirectory() -> path]. *)
Definition get_working_dir (self : StepImplementer) : string :=
  working_dir self.

(** Modelled from the spec: [StepImplementer._validate_runtime_step_config],
    the required-keys rule: every key the implementer declares as required
    must be present in the merged configuration, else the assertion fails.
    The text of the message is not part of the modelled contract. *)
Definition base_validate_runtime_step_config (required : list string)
    (runtime_step_config : gmap string value) : outcome unit :=
  match find (fun k => negb (contains runtime_step_config k)) required with
  | Some k => Raise (AssertionError ("missing required configuration: " +:+ k))
  | None => Return tt
  end.

(** Modelled from the spec: the external process boundary.  [sh.sonar_scanner]
    runs the executable with the given arguments, blocks until it exits, and
    raises [sh.ErrorReturnCode] when the exit status is not zero.  The call is
    appended to the log whatever the status. *)
Definition sh_sonar_scanner (os : OS) (args : list string) : M unit :=
  fun log =>
    let '(status, detail) := sonar_scanner os args in
    (if status =? 0 then Return tt else Raise (ErrorReturnCode status detail),
     log ++ [args]).

(** [isinstance(e, sh.ErrorReturnCode)] *)
Definition is_ErrorReturnCode (e : exn) : bool :=
  match e with
  | ErrorReturnCode _ _ => true
  | _ => false
  end.

(** [str(error)]; the module formats an [ErrorReturnCode] only. *)
Definition exn_str (e : exn) : string :=
  match e with
  | AssertionError msg | ValueError msg | RuntimeError msg _ => msg
  | ErrorReturnCode _ detail => detail
  | KeyError key => key
  | TypeError => EmptyString
  end.

(** ** The class [SonarQube] *)

(** The records of the dictionary [_run_step] returns. *)
Record StepResult : Type := {
  success : bool;
  message : string
}.

Record ReportArtifact : Type := {
  artifact_name : string;
  artifact_path : string
}.

Record Results : Type := {
  results_result : StepResult;
  results_report_artifacts : list ReportArtifact
}.

(** The condition of the [assert] in [_validate_runtime_step_config]
    (lines 204-207). *)
Definition credential_pair_assertion (runtime_step_config : gmap string value)
    : bool :=
  forallb (fun element => contains runtime_step_config element)
          (keys AUTHENTICATION_CONFIG)
  || negb (existsb (fun element => contains runtime_step_config element)
                   (keys AUTHENTICATION_CONFIG)).

(** [SonarQube._validate_runtime_step_config] (lines 187-207). *)
Definition _validate_runtime_step_config
    (runtime_step_config : gmap string value) : outcome unit :=
  _ ← base_validate_runtime_step_config required_runtime_step_config_keys
        runtime_step_config;
  if credential_pair_assertion runtime_step_config then Return tt
  else Raise (AssertionError
    "Either username or password is not set. Neither or both must be set.").

(** Lines 218-225 of [_run_step]: the local variables [user] and [password]. *)
Definition credentials (self : StepImplementer) : value * value :=
  let user := VStr "" in
  let password := VStr "" in
  if has_config_value self (keys AUTHENTICATION_CONFIG) then
    if truthy (get_config_value self "user")
       && truthy (get_config_value self "password")
    then (get_config_value self "user", get_config_value self "password")
    else (user, password)
  else (user, password).

(** Lines 227-232 of [_run_step]: the local variable [version].  A result
    dictionary that is absent ([None]) or empty is false, as is a [version]
    that is absent, [None] or empty. *)
Definition required_version (self : StepImplementer) : outcome value :=
  if match get_step_results self "generate-metadata" with
     | Some results => dict_truthy results && truthy (dict_get results "version")
     | None => false
     end
  then
    match get_step_results self "generate-metadata" with
    | Some results => dict_index results "version"
    | None => Raise TypeError
    end
  else
    Raise (ValueError
      "Severe error: Generate-metadata results is missing a version tag").

(** Lines 234-237 of [_run_step]: the local variable [properties_file].  The
    message of the [ValueError] is itself a concatenation, evaluated before
    the exception is built. *)
Definition required_properties (os : OS) (self : StepImplementer)
    : outcome value :=
  let properties_file := get_config_value self "properties" in
  if negb (truthy properties_file)
     || negb (match properties_file with
              | VStr p => path_exists os p
              | VNone => false
              end)
  then
    msg ← str_add "Properties file in tssc config not found: " properties_file;
    Raise (ValueError msg)
  else Return properties_file.

(** Lines 244-255: the argument list of the call without credentials. *)
Definition scanner_args_anonymous (self : StepImplementer) (version : value)
    (working_directory : string) : outcome (list string) :=
  a1 ← str_add "-Dproject.settings=" (get_config_value self "properties");
  a2 ← str_add "-Dsonar.host.url=" (get_config_value self "url");
  a3 ← str_add "-Dsonar.projectVersion=" version;
  a4 ← (k ← str_add "-Dsonar.projectKey="
               (get_config_value self "application-name");
        str_add (k +:+ ":") (get_config_value self "service-name"));
  a5 ← Return ("-Dsonar.working.directory=" +:+ working_directory);
  Return [a1; a2; a3; a4; a5].

(** Lines 257-270: the argument list of the call with credentials. *)
Definition scanner_args_credentialed (self : StepImplementer) (version : value)
    (user password : value) (working_directory : string)
    : outcome (list string) :=
  a1 ← str_add "-Dproject.settings=" (get_config_value self "properties");
  a2 ← str_add "-Dsonar.host.url=" (get_config_value self "url");
  a3 ← str_add "-Dsonar.projectVersion=" version;
  a4 ← (k ← str_add "-Dsonar.projectKey="
               (get_config_value self "application-name");
        str_add (k +:+ ":") (get_config_value self "service-name"));
  a5 ← str_add "-Dsonar.login=" user;
  a6 ← str_add "-Dsonar.password=" password;
  a7 ← Return ("-Dsonar.working.directory=" +:+ working_directory);
  Return [a1; a2; a3; a4; a5; a6; a7].

(** Lines 275-286: the dictionary returned on success. *)
Definition success_results (working_directory : string) : Results :=
  {| results_result :=
       {| success := true;
          message := "sonarqube step completed - see report-artifacts" |};
     results_report_artifacts :=
       [ {| artifact_name := "sonarqube result set";
            artifact_path :=
              "file://" +:+ working_directory +:+ "/report-task.txt" |} ] |}.

(** [SonarQube._run_step] (lines 209-287). *)
Definition _run_step (os : OS) (self : StepImplementer) : M Results :=
  let '(user, password) := credentials self in
  version ← lift (required_version self);
  properties_file ← lift (required_properties os self);
  working_directory ←
    try_except
      (let working_directory := get_working_dir self in
       (if bool_decide (user = VStr "") then
          args ← lift (scanner_args_anonymous self version working_directory);
          sh_sonar_scanner os args
        else
          args ← lift (scanner_args_credentialed self version user password
                         working_directory);
          sh_sonar_scanner os args);;
       mret working_directory)
      is_ErrorReturnCode
      (fun error =>
         raise (RuntimeError ("Error invoking sonarscanner: " +:+ exn_str error)
                             error));
  mret (success_results working_directory).

(** Modelled from the spec: [StepImplementer.run_step], the [run()] of the
    spec: a single linear flow, validate the merged configuration, then run
    the step; a validation failure aborts the step before [_run_step]. *)
Definition run_step (os : OS) (self : StepImplementer) : M Results :=
  _ ← lift (_validate_runtime_step_config (step_config self));
  _run_step os self.

(** ** Derived notions used by the statements *)

(** The project-key argument, which each of the two calls builds by the same
    two concatenations (lines 248-251 and lines 261-264). *)
Definition project_key (self : StepImplementer) : outcome string :=
  k ← str_add "-Dsonar.projectKey=" (get_config_value self "application-name");
  str_add (k +:+ ":") (get_config_value self "service-name").

(** The argument list [_run_step] assembles, whichever of the two calls it
    takes. *)
Definition scanner_args (self : StepImplementer) (version : value)
    : outcome (list string) :=
  let '(user, password) := credentials self in
  if bool_decide (user = VStr "")
  then scanner_args_anonymous self version (get_working_dir self)
  else scanner_args_credentialed self version user password
         (get_working_dir self).

(** What the child process did with an argument list, as [_run_step]
    reports it. *)
Definition scanner_outcome (os : OS) (self : StepImplementer)
    (args : list string) : outcome Results :=
  if fst (sonar_scanner os args) =? 0
  then Return (success_results (working_dir self))
  else Raise (RuntimeError
         ("Error invoking sonarscanner: " +:+ snd (sonar_scanner os args))
         (ErrorReturnCode (fst (sonar_scanner os args))
                          (snd (sonar_scanner os args)))).

(** An argument that sets [sonar.login], and one that sets [sonar.password]. *)
Definition is_login_arg (arg : string) : bool :=
  String.prefix "-Dsonar.login=" arg.

Definition is_password_arg (arg : string) : bool :=
  String.prefix "-Dsonar.password=" arg.

(** The arguments the specification lists as shared by the two calls, from
    the settings file [pf], the host [url], the version [v] and the two names
    [a] and [s]: the project key is [a], a single colon, [s]. *)
Definition shared_arguments (pf url v a s : string) : list string :=
  ["-Dproject.settings=" +:+ pf;
   "-Dsonar.host.url=" +:+ url;
   "-Dsonar.projectVersion=" +:+ v;
   "-Dsonar.projectKey=" +:+ (a +:+ ":" +:+ s)].

Definition working_directory_argument (self : StepImplementer) : string :=
  "-Dsonar.working.directory=" +:+ get_working_dir self.

(** The configuration behind a list of arguments that was assembled: every
    value that is concatenated is a [str]. *)
Definition assembled_from (self : StepImplementer) (version : value)
    (pf url v a s : string) : Prop :=
  get_config_value self "properties" = VStr pf
  /\ get_config_value self "url" = VStr url
  /\ version = VStr v
  /\ get_config_value self "application-name" = VStr a
  /\ get_config_value self "service-name" = VStr s.

(** The [version] entry of the [generate-metadata] result, if there is one:
    all that lines 227-232 read of the results of earlier steps. *)
Definition version_entry (self : StepImplementer) : option value :=
  get_step_results self "generate-metadata" ≫= (.!! "version").

(** The credential arguments of a call: none when the local [user] is empty
    (the test of line 243), else the two of lines 265-266. *)
Definition login_arguments (self : StepImplementer) : list string :=
  match credentials self with
  | (VStr u, VStr p) =>
      if bool_decide (u = "") then []
      else ["-Dsonar.login=" +:+ u; "-Dsonar.password=" +:+ p]
  | _ => []
  end.

(** The configuration keys [_run_step] reads. *)
Definition CONFIG_KEYS_READ : list string :=
  ["properties"; "url"; "application-name"; "service-name";
   "user"; "password"].

(** [self] with the two credential keys removed from its configuration. *)
Definition without_credentials (self : StepImplementer) : StepImplementer :=
  {| step_config := delete "user" (delete "password" (step_config self));
     step_results := step_results self;
     working_dir := working_dir self |}.

(** A string without a colon, the separator of the project key. *)
Fixpoint colon_free (s : string) : bool :=
  match s with
  | EmptyString => true
  | String c s' => negb (Ascii.eqb c ":"%char) && colon_free s'
  end.

(** ** Sample inputs: the end-to-end example of the specification *)

Definition example_config : gmap string value :=
  <["url" := VStr "https://sonar.example.com"]>
  (<["application-name" := VStr "app"]>
  (<["service-name" := VStr "svc"]>
  (<["properties" := VStr "./sonar-project.properties"]> ∅))).

Definition example_results : gmap string (gmap string value) :=
  <["generate-metadata" := <["version" := VStr "1.2.3"]> ∅]> ∅.

Definition example_step (config : gmap string value) : StepImplementer :=
  {| step_config := config;
     step_results := example_results;
     working_dir := "/work" |}.

(** A file system holding the default properties file, and a scanner that
    exits with the given status. *)
Definition example_os (status : Z) : OS :=
  {| path_exists := fun p => bool_decide (p = "./sonar-project.properties");
     sonar_scanner := fun _ => (status, "RAN: sonar-scanner") |}.

(** * Properties *)

(** ** The shape of [_run_step] *)

Lemma str_add_raise s v e : str_add s v = Raise e -> e = TypeError.
Proof. destruct v; simpl; congruence. Qed.

Lemma project_key_raise self e : project_key self = Raise e -> e = TypeError.
Proof.
  unfold project_key.
  destruct (get_config_value self "application-name"); simpl; [congruence|].
  apply str_add_raise.
Qed.

Lemma scanner_args_anonymous_raise self version wd e :
  scanner_args_anonymous self version wd = Raise e -> e = TypeError.
Proof.
  unfold scanner_args_anonymous. fold (project_key self).
  destruct (get_config_value self "properties"); simpl; [congruence|].
  destruct (get_config_value self "url"); simpl; [congruence|].
  destruct version; simpl; [congruence|].
  destruct (project_key self) eqn:Hk; simpl; [congruence|].
  intros [= <-]. eauto using project_key_raise.
Qed.

Lemma scanner_args_credentialed_raise self version user password wd e :
  scanner_args_credentialed self version user password wd = Raise e ->
  e = TypeError.
Proof.
  unfold scanner_args_credentialed. fold (project_key self).
  destruct (get_config_value self "properties"); simpl; [congruence|].
  destruct (get_config_value self "url"); simpl; [congruence|].
  destruct version; simpl; [congruence|].
  destruct (project_key self) eqn:Hk; simpl.
  - destruct user; simpl; [congruence|].
    destruct password; simpl; congruence.
  - intros [= <-]. eauto using project_key_raise.
Qed.

Lemma scanner_args_raise self version e :
  scanner_args self version = Raise e -> e = TypeError.
Proof.
  unfold scanner_args. destruct (credentials self) as [user password].
  case_bool_decide;
    eauto using scanner_args_anonymous_raise, scanner_args_credentialed_raise.
Qed.

(** [_run_step] as a decision list: the three preconditions in the order the
    source checks them, then the one call of the scanner. *)
Lemma _run_step_unfold os self log :
  _run_step os self log =
    match required_version self with
    | Raise e => (Raise e, log)
    | Return version =>
        match required_properties os self with
        | Raise e => (Raise e, log)
        | Return _ =>
            match scanner_args self version with
            | Raise e => (Raise e, log)
            | Return args => (scanner_outcome os self args, log ++ [args])
            end
        end
    end.
Proof.
  unfold _run_step.
  pose proof (scanner_args_raise self) as Hraise.
  unfold scanner_args in *.
  destruct (credentials self) as [user password].
  unfold mbind, M_bind, lift, try_except.
  destruct (required_version self) as [version|e]; [|done].
  destruct (required_properties os self) as [pf|e]; [|done].
  specialize (Hraise version).
  unfold scanner_outcome, get_working_dir in *.
  case_bool_decide.
  - destruct (scanner_args_anonymous _ _ _) as [args|e].
    + unfold sh_sonar_scanner. destruct (sonar_scanner os args) as [st d].
      simpl. destruct (st =? 0); reflexivity.
    + rewrite (Hraise e eq_refl). reflexivity.
  - destruct (scanner_args_credentialed _ _ _ _ _) as [args|e].
    + unfold sh_sonar_scanner. destruct (sonar_scanner os args) as [st d].
      simpl. destruct (st =? 0); reflexivity.
    + rewrite (Hraise e eq_refl). reflexivity.
Qed.

Lemma run_step_unfold os self log :
  run_step os self log =
    match _validate_runtime_step_config (step_config self) with
    | Return _ => _run_step os self log
    | Raise e => (Raise e, log)
    end.
Proof.
  unfold run_step, mbind, M_bind, lift.
  destruct (_validate_runtime_step_config _); reflexivity.
Qed.

(** A configuration that passes validation: [run_step] is [_run_step]. *)
Lemma run_step_validated os self log :
  _validate_runtime_step_config (step_config self) = Return tt ->
  run_step os self log = _run_step os self log.
Proof. intros Hvalid. by rewrite run_step_unfold, Hvalid. Qed.

(** The two end-to-end examples of the specification. *)
Example run_step_without_credentials :
  run_step (example_os 0) (example_step example_config) []
  = (Return (success_results "/work"),
     [["-Dproject.settings=./sonar-project.properties";
       "-Dsonar.host.url=https://sonar.example.com";
       "-Dsonar.projectVersion=1.2.3";
       "-Dsonar.projectKey=app:svc";
       "-Dsonar.working.directory=/work"]]).
Proof. vm_compute. reflexivity. Qed.

Example run_step_with_credentials :
  run_step (example_os 0)
    (example_step (<["user" := VStr "u"]> (<["password" := VStr "p"]>
                     example_config))) []
  = (Return (success_results "/work"),
     [["-Dproject.settings=./sonar-project.properties";
       "-Dsonar.host.url=https://sonar.example.com";
       "-Dsonar.projectVersion=1.2.3";
       "-Dsonar.projectKey=app:svc";
       "-Dsonar.login=u";
       "-Dsonar.password=p";
       "-Dsonar.working.directory=/work"]]).
Proof. vm_compute. reflexivity. Qed.

(** ** Validation *)

Lemma credential_pair_assertion_spec (cfg : gmap string value) :
  credential_pair_assertion cfg = true <->
  contains cfg "user" = contains cfg "password".
Proof.
  unfold credential_pair_assertion. simpl.
  destruct (contains cfg "user"), (contains cfg "password"); simpl;
    split; congruence.
Qed.

Lemma base_validate_raise required (cfg : gmap string value) e :
  base_validate_runtime_step_config required cfg = Raise e ->
  exists msg, e = AssertionError msg.
Proof.
  unfold base_validate_runtime_step_config.
  destruct (find _ required); intros [= <-]. eauto.
Qed.

(** C1. Credential-pair validation.  The assertion of
    [_validate_runtime_step_config] holds exactly when the presence flags of
    [user] and [password] in the merged configuration are equal; for a
    configuration that passes the required-keys rule of the base class the
    whole validation succeeds exactly then; and when exactly one of the two
    keys is present the validation raises an [AssertionError] (the
    configuration error of the specification) and [run_step] stops with it,
    leaving the log of scanner invocations as it was. *)
Theorem credential_pair_validation (os : OS) (self : StepImplementer) :
  let cfg := step_config self in
  (credential_pair_assertion cfg = true <->
   contains cfg "user" = contains cfg "password")
  /\ (base_validate_runtime_step_config required_runtime_step_config_keys cfg
        = Return tt ->
      (_validate_runtime_step_config cfg = Return tt <->
       contains cfg "user" = contains cfg "password"))
  /\ (contains cfg "user" <> contains cfg "password" ->
      exists msg,
        _validate_runtime_step_config cfg = Raise (AssertionError msg)
        /\ forall log, run_step os self log = (Raise (AssertionError msg), log)).
Proof.
  intros cfg. split; [apply credential_pair_assertion_spec|]. split.
  - intros Hbase. unfold _validate_runtime_step_config. rewrite Hbase. simpl.
    rewrite <- credential_pair_assertion_spec.
    destruct (credential_pair_assertion cfg); split; congruence.
  - intros Hne.
    assert (exists msg,
      _validate_runtime_step_config cfg = Raise (AssertionError msg))
      as [msg Hmsg].
    { unfold _validate_runtime_step_config.
      destruct (base_validate_runtime_step_config _ cfg) as [[]|e] eqn:Hbase.
      - simpl. destruct (credential_pair_assertion cfg) eqn:Hc; [|eauto].
        apply credential_pair_assertion_spec in Hc. contradiction.
      - apply base_validate_raise in Hbase as [msg ->]. simpl. eauto. }
    exists msg. split; [exact Hmsg|].
    intros log. rewrite run_step_unfold. fold cfg. rewrite Hmsg. reflexivity.
Qed.

Lemma credential_pair_validation_witness :
  let cfg := <["user" := VStr "u"]> example_config in
  base_validate_runtime_step_config required_runtime_step_config_keys cfg
    = Return tt
  /\ contains cfg "user" <> contains cfg "password"
  /\ _validate_runtime_step_config cfg <> Return tt
  /\ exists msg, forall log,
       run_step (example_os 0) (example_step cfg) log
       = (Raise (AssertionError msg), log).
Proof.
  intros cfg.
  assert (base_validate_runtime_step_config
            required_runtime_step_config_keys cfg = Return tt) as Hbase
    by (vm_compute; reflexivity).
  assert (contains cfg "user" <> contains cfg "password") as Hne
    by (vm_compute; discriminate).
  destruct (credential_pair_validation (example_os 0) (example_step cfg))
    as (_ & Hiff & Hfail).
  split; [exact Hbase|]. split; [exact Hne|]. split.
  - intros Hok. apply (proj1 (Hiff Hbase)) in Hok. exact (Hne Hok).
  - destruct (Hfail Hne) as (msg & _ & Hrun). exists msg. exact Hrun.
Defined.

(** ** Reaching the scanner *)

(** The version check either yields a non-empty [version] or raises its
    [ValueError]; the subscript in the first branch cannot fail. *)
Lemma required_version_cases self :
  (exists v, required_version self = Return (VStr v) /\ v <> "")
  \/ required_version self = Raise (ValueError
       "Severe error: Generate-metadata results is missing a version tag").
Proof.
  unfold required_version.
  destruct (get_step_results self "generate-metadata") as [d|]; [|by right].
  unfold dict_get, dict_index.
  destruct (dict_truthy d); simpl; [|by right].
  destruct (d !! "version") as [[|[|c v]]|]; simpl; try (by right).
  left. by exists (String c v).
Qed.

(** A run that appended [args] to the log passed the two checks, assembled
    [args] and reports what the scanner did with them. *)
Lemma _run_step_invoked os self log r args :
  _run_step os self log = (r, log ++ [args]) ->
  exists version,
    required_version self = Return version
    /\ scanner_args self version = Return args
    /\ r = scanner_outcome os self args.
Proof.
  rewrite _run_step_unfold.
  assert (forall e, (Raise e, log) = (r, log ++ [args]) -> False)
    as Hstuck.
  { intros e [= _ Hlog]. rewrite <- (app_nil_r log) in Hlog at 1.
    apply app_inv_head in Hlog. discriminate. }
  destruct (required_version self) as [version|e] eqn:Hversion;
    [|intros H; by destruct (Hstuck _ H)].
  destruct (required_properties os self) as [pf|e];
    [|intros H; by destruct (Hstuck _ H)].
  destruct (scanner_args self version) as [args'|e] eqn:Hargs;
    [|intros H; by destruct (Hstuck _ H)].
  intros [= <- Hlog]. apply app_inv_head in Hlog as [= ->].
  exists version. repeat split; assumption.
Qed.

(** A run that fails before the call leaves the log as it was. *)
Lemma _run_step_log os self log :
  snd (_run_step os self log) = log
  \/ exists args, snd (_run_step os self log) = log ++ [args].
Proof.
  rewrite _run_step_unfold.
  destruct (required_version self); [|by left].
  destruct (required_properties os self); [|by left].
  destruct (scanner_args self _); [right|by left]. eauto.
Qed.

(** ** Results *)

(** C2. Success-path result shape.  Whenever [_run_step] has invoked the
    scanner with some arguments and the scanner exited with status zero, the
    step returns a result whose [result] record has [success = True] and the
    message "sonarqube step completed - see report-artifacts", and whose
    [report-artifacts] list has exactly one entry, named
    "sonarqube result set", with path
    "file://" + working directory + "/report-task.txt". *)
Theorem success_result_shape os self log r args :
  _run_step os self log = (r, log ++ [args]) ->
  fst (sonar_scanner os args) = 0 ->
  exists results,
    r = Return results
    /\ success (results_result results) = true
    /\ message (results_result results)
       = "sonarqube step completed - see report-artifacts"
    /\ results_report_artifacts results
       = [ {| artifact_name := "sonarqube result set";
              artifact_path :=
                "file://" +:+ get_working_dir self +:+ "/report-task.txt" |} ].
Proof.
  intros Hrun Hzero.
  apply _run_step_invoked in Hrun as (version & _ & _ & ->).
  unfold scanner_outcome. rewrite Hzero. simpl.
  exists (success_results (working_dir self)). repeat split.
Qed.

Lemma success_result_shape_witness :
  let os := example_os 0 in
  let self := example_step example_config in
  let args := ["-Dproject.settings=./sonar-project.properties";
               "-Dsonar.host.url=https://sonar.example.com";
               "-Dsonar.projectVersion=1.2.3";
               "-Dsonar.projectKey=app:svc";
               "-Dsonar.working.directory=/work"] in
  exists r,
    _run_step os self [] = (r, [args])
    /\ fst (sonar_scanner os args) = 0
    /\ exists results,
         r = Return results
         /\ results_report_artifacts results
            = [ {| artifact_name := "sonarqube result set";
                   artifact_path := "file:///work/report-task.txt" |} ].
Proof.
  intros os self args.
  exists (fst (_run_step os self [])).
  assert (_run_step os self [] = (fst (_run_step os self []), [] ++ [args]))
    as Hrun by (vm_compute; reflexivity).
  assert (fst (sonar_scanner os args) = 0) as Hzero by reflexivity.
  split; [exact Hrun|]. split; [exact Hzero|].
  destruct (success_result_shape os self [] _ args Hrun Hzero)
    as (results & Hr & _ & _ & Hart).
  exists results. split; [exact Hr|exact Hart].
Defined.

(** C3. Non-zero exit handling.  Whenever [_run_step] has invoked the scanner
    and the scanner exited with a status other than zero, the step raises a
    [RuntimeError] (the external-tool error of the specification) whose
    message carries the text of the [sh.ErrorReturnCode] and whose cause is
    that exception; no result is returned. *)
Theorem nonzero_exit_raises os self log r args :
  _run_step os self log = (r, log ++ [args]) ->
  fst (sonar_scanner os args) <> 0 ->
  r = Raise (RuntimeError
        ("Error invoking sonarscanner: " +:+ snd (sonar_scanner os args))
        (ErrorReturnCode (fst (sonar_scanner os args))
                         (snd (sonar_scanner os args))))
  /\ forall results, r <> Return results.
Proof.
  intros Hrun Hnz.
  apply _run_step_invoked in Hrun as (version & _ & _ & ->).
  unfold scanner_outcome.
  destruct (Z.eqb_spec (fst (sonar_scanner os args)) 0) as [Hz|_];
    [contradiction|].
  split; [reflexivity|discriminate].
Qed.

Lemma nonzero_exit_raises_witness :
  let os := example_os 2 in
  let self := example_step example_config in
  let args := ["-Dproject.settings=./sonar-project.properties";
               "-Dsonar.host.url=https://sonar.example.com";
               "-Dsonar.projectVersion=1.2.3";
               "-Dsonar.projectKey=app:svc";
               "-Dsonar.working.directory=/work"] in
  exists r,
    _run_step os self [] = (r, [args])
    /\ fst (sonar_scanner os args) <> 0
    /\ r = Raise (RuntimeError "Error invoking sonarscanner: RAN: sonar-scanner"
                    (ErrorReturnCode 2 "RAN: sonar-scanner")).
Proof.
  intros os self args.
  exists (fst (_run_step os self [])).
  assert (_run_step os self [] = (fst (_run_step os self []), [] ++ [args]))
    as Hrun by (vm_compute; reflexivity).
  assert (fst (sonar_scanner os args) <> 0) as Hnz by (simpl; discriminate).
  split; [exact Hrun|]. split; [exact Hnz|].
  exact (proj1 (nonzero_exit_raises os self [] _ args Hrun Hnz)).
Defined.

(** ** Preconditions *)

(** C6. Missing prerequisite version.  When the [generate-metadata] step
    result is absent, or its [version] is absent, [None] or empty,
    [_run_step] raises the [ValueError] that reports the missing version
    (the missing-dependency error of the specification) and the log of
    scanner invocations is unchanged, whatever the configuration and the file
    system are. *)
Theorem missing_version_raises os self log :
  (get_step_results self "generate-metadata" = None
   \/ exists results,
        get_step_results self "generate-metadata" = Some results
        /\ truthy (dict_get results "version") = false) ->
  _run_step os self log
  = (Raise (ValueError
       "Severe error: Generate-metadata results is missing a version tag"),
     log).
Proof.
  intros Hlacks. rewrite _run_step_unfold.
  assert (required_version self = Raise (ValueError
    "Severe error: Generate-metadata results is missing a version tag"))
    as ->; [|reflexivity].
  unfold required_version.
  destruct Hlacks as [->|(results & -> & ->)]; [reflexivity|].
  by rewrite andb_false_r.
Qed.

Lemma missing_version_raises_witness :
  let self := {| step_config := example_config;
                 step_results := <["generate-metadata" :=
                                     <["version" := VStr ""]> ∅]> ∅;
                 working_dir := "/work" |} in
  (exists results,
     get_step_results self "generate-metadata" = Some results
     /\ truthy (dict_get results "version") = false)
  /\ _run_step (example_os 0) self []
     = (Raise (ValueError
          "Severe error: Generate-metadata results is missing a version tag"),
        []).
Proof.
  intros self.
  assert (exists results,
     get_step_results self "generate-metadata" = Some results
     /\ truthy (dict_get results "version") = false) as Hlacks.
  { exists (<["version" := VStr ""]> ∅). split; vm_compute; reflexivity. }
  split; [exact Hlacks|].
  apply (missing_version_raises (example_os 0) self []). right. exact Hlacks.
Defined.

(** C7. Missing properties file.  When the configured [properties] path does
    not exist on the file system, [_run_step] raises a [ValueError] (the
    configuration error of the specification) and the log of scanner
    invocations is unchanged.  The properties check itself raises the
    [ValueError] that names the path, and that is the error of the step
    whenever the version check, which comes first, has passed. *)
Theorem missing_properties_file_raises os self log p :
  get_config_value self "properties" = VStr p ->
  path_exists os p = false ->
  (exists msg, _run_step os self log = (Raise (ValueError msg), log))
  /\ required_properties os self
     = Raise (ValueError ("Properties file in tssc config not found: " +:+ p))
  /\ forall version,
       required_version self = Return version ->
       _run_step os self log
       = (Raise (ValueError
            ("Properties file in tssc config not found: " +:+ p)), log).
Proof.
  intros Hp Hmissing.
  assert (required_properties os self
    = Raise (ValueError ("Properties file in tssc config not found: " +:+ p)))
    as Hcheck.
  { unfold required_properties. rewrite Hp, Hmissing.
    rewrite orb_true_r. reflexivity. }
  split; [|split; [exact Hcheck|]].
  - rewrite _run_step_unfold, Hcheck.
    destruct (required_version_cases self) as [(v & -> & _)| ->]; eauto.
  - intros version Hversion.
    rewrite _run_step_unfold, Hversion, Hcheck. reflexivity.
Qed.

Lemma missing_properties_file_raises_witness :
  let os := {| path_exists := fun _ => false;
               sonar_scanner := fun _ => (0, "") |} in
  let self := example_step example_config in
  get_config_value self "properties" = VStr "./sonar-project.properties"
  /\ path_exists os "./sonar-project.properties" = false
  /\ _run_step os self []
     = (Raise (ValueError
          "Properties file in tssc config not found: ./sonar-project.properties"),
        []).
Proof.
  intros os self.
  assert (get_config_value self "properties"
          = VStr "./sonar-project.properties") as Hp by (vm_compute; reflexivity).
  assert (path_exists os "./sonar-project.properties" = false) as Hmissing
    by reflexivity.
  split; [exact Hp|]. split; [exact Hmissing|].
  destruct (missing_properties_file_raises os self [] _ Hp Hmissing)
    as (_ & _ & Hrun).
  apply (Hrun (VStr "1.2.3")). vm_compute. reflexivity.
Defined.

(** C10. Failure of the failure path.  When the merged [properties] value is
    [None] (set to null, or absent), the properties check takes its
    error-reporting branch and the concatenation that builds the message
    raises a [TypeError] before the [ValueError] can be built; so a step
    whose version check has passed fails with [TypeError], the scanner not
    being invoked. *)
Theorem null_properties_raises_type_error os self :
  get_config_value self "properties" = VNone ->
  required_properties os self = Raise TypeError
  /\ forall version log,
       required_version self = Return version ->
       _run_step os self log = (Raise TypeError, log).
Proof.
  intros Hnull.
  assert (required_properties os self = Raise TypeError) as Hcheck.
  { unfold required_properties. rewrite Hnull. reflexivity. }
  split; [exact Hcheck|].
  intros version log Hversion.
  rewrite _run_step_unfold, Hversion, Hcheck. reflexivity.
Qed.

Lemma null_properties_raises_type_error_witness :
  let self := example_step (<["properties" := VNone]> example_config) in
  get_config_value self "properties" = VNone
  /\ required_version self = Return (VStr "1.2.3")
  /\ _run_step (example_os 0) self [] = (Raise TypeError, []).
Proof.
  intros self.
  assert (get_config_value self "properties" = VNone) as Hnull
    by (vm_compute; reflexivity).
  assert (required_version self = Return (VStr "1.2.3")) as Hversion
    by (vm_compute; reflexivity).
  split; [exact Hnull|]. split; [exact Hversion|].
  exact (proj2 (null_properties_raises_type_error (example_os 0) self Hnull)
           (VStr "1.2.3") [] Hversion).
Defined.

(** ** The assembled arguments *)

Lemma string_append_assoc (s1 s2 s3 : string) :
  (s1 +:+ s2) +:+ s3 = s1 +:+ (s2 +:+ s3).
Proof.
  induction s1 as [|c s1 IH]; [reflexivity|].
  change (String c ((s1 +:+ s2) +:+ s3) = String c (s1 +:+ (s2 +:+ s3))).
  by f_equal.
Qed.

Lemma project_key_Return self k :
  project_key self = Return k ->
  exists a s,
    get_config_value self "application-name" = VStr a
    /\ get_config_value self "service-name" = VStr s
    /\ k = "-Dsonar.projectKey=" +:+ (a +:+ ":" +:+ s).
Proof.
  unfold project_key.
  destruct (get_config_value self "application-name") as [|a]; [done|].
  destruct (get_config_value self "service-name") as [|s]; [done|].
  intros [= <-]. exists a, s. repeat split.
  by rewrite !string_append_assoc.
Qed.

Lemma scanner_args_anonymous_Return self version wd args :
  scanner_args_anonymous self version wd = Return args ->
  exists pf url v a s,
    assembled_from self version pf url v a s
    /\ args = (shared_arguments pf url v a s
               ++ ["-Dsonar.working.directory=" +:+ wd]).
Proof.
  unfold scanner_args_anonymous, assembled_from. fold (project_key self).
  destruct (get_config_value self "properties") as [|pf]; [done|].
  destruct (get_config_value self "url") as [|url]; [done|].
  destruct version as [|v]; [done|].
  destruct (project_key self) as [k|] eqn:Hk; [|done].
  apply project_key_Return in Hk as (a & s & -> & -> & ->).
  intros [= <-]. by exists pf, url, v, a, s.
Qed.

Lemma scanner_args_credentialed_Return self version user password wd args :
  scanner_args_credentialed self version user password wd = Return args ->
  exists pf url v a s u p,
    assembled_from self version pf url v a s
    /\ user = VStr u /\ password = VStr p
    /\ args = (shared_arguments pf url v a s
               ++ ["-Dsonar.login=" +:+ u; "-Dsonar.password=" +:+ p]
               ++ ["-Dsonar.working.directory=" +:+ wd]).
Proof.
  unfold scanner_args_credentialed, assembled_from. fold (project_key self).
  destruct (get_config_value self "properties") as [|pf]; [done|].
  destruct (get_config_value self "url") as [|url]; [done|].
  destruct version as [|v]; [done|].
  destruct (project_key self) as [k|] eqn:Hk; [|done].
  apply project_key_Return in Hk as (a & s & -> & -> & ->).
  destruct user as [|u]; [done|]. destruct password as [|p]; [done|].
  intros [= <-]. by exists pf, url, v, a, s, u, p.
Qed.

Lemma project_key_eq self a s :
  get_config_value self "application-name" = VStr a ->
  get_config_value self "service-name" = VStr s ->
  project_key self = Return ("-Dsonar.projectKey=" +:+ (a +:+ ":" +:+ s)).
Proof.
  intros Ha Hs.
  destruct (project_key self) as [k|e] eqn:Hk.
  - apply project_key_Return in Hk as (a' & s' & Ha' & Hs' & ->). congruence.
  - unfold project_key in Hk. rewrite Ha, Hs in Hk. discriminate.
Qed.

Lemma scanner_args_anonymous_eq self version wd pf url v a s :
  assembled_from self version pf url v a s ->
  scanner_args_anonymous self version wd
  = Return (shared_arguments pf url v a s
            ++ ["-Dsonar.working.directory=" +:+ wd]).
Proof.
  intros (Hpf & Hurl & -> & Ha & Hs). unfold scanner_args_anonymous. fold (project_key self).
  rewrite Hpf, Hurl, (project_key_eq self a s Ha Hs). reflexivity.
Qed.

Lemma scanner_args_credentialed_eq self version wd pf url v a s u p :
  assembled_from self version pf url v a s ->
  scanner_args_credentialed self version (VStr u) (VStr p) wd
  = Return (shared_arguments pf url v a s
            ++ ["-Dsonar.login=" +:+ u; "-Dsonar.password=" +:+ p]
            ++ ["-Dsonar.working.directory=" +:+ wd]).
Proof.
  intros (Hpf & Hurl & -> & Ha & Hs). unfold scanner_args_credentialed. fold (project_key self).
  rewrite Hpf, Hurl, (project_key_eq self a s Ha Hs). reflexivity.
Qed.

(** C8. Variant agreement.  For a fixed configuration, version and working
    directory the two argument lists of the source agree on every shared
    argument: whenever the credentialed list is assembled, so is the
    non-credentialed one, both consist of the same four leading arguments
    (settings file, host URL, project version, project key) and the same
    final working-directory argument, and the credentialed list differs only
    by the login and password arguments placed just before the
    working-directory argument; conversely, whenever the non-credentialed
    list is assembled and the credentials are strings, the credentialed list
    is assembled from the same shared arguments. *)
Theorem variant_agreement self version user password wd :
  (forall c,
     scanner_args_credentialed self version user password wd = Return c ->
     exists pf url v a s u p,
       assembled_from self version pf url v a s
       /\ user = VStr u /\ password = VStr p
       /\ scanner_args_anonymous self version wd
          = Return (shared_arguments pf url v a s
                    ++ ["-Dsonar.working.directory=" +:+ wd])
       /\ c = (shared_arguments pf url v a s
               ++ ["-Dsonar.login=" +:+ u; "-Dsonar.password=" +:+ p]
               ++ ["-Dsonar.working.directory=" +:+ wd]))
  /\ (forall n u p,
        scanner_args_anonymous self version wd = Return n ->
        user = VStr u -> password = VStr p ->
        exists shared,
          length shared = 4%nat
          /\ n = (shared ++ ["-Dsonar.working.directory=" +:+ wd])
          /\ scanner_args_credentialed self version user password wd
             = Return (shared
                       ++ ["-Dsonar.login=" +:+ u; "-Dsonar.password=" +:+ p]
                       ++ ["-Dsonar.working.directory=" +:+ wd])).
Proof.
  split.
  - intros c Hc.
    apply scanner_args_credentialed_Return in Hc
      as (pf & url & v & a & s & u & p & Hfrom & -> & -> & ->).
    exists pf, url, v, a, s, u, p.
    rewrite (scanner_args_anonymous_eq self version wd pf url v a s Hfrom).
    split; [exact Hfrom|]. repeat split.
  - intros n u p Hn -> ->.
    apply scanner_args_anonymous_Return in Hn
      as (pf & url & v & a & s & Hfrom & ->).
    exists (shared_arguments pf url v a s).
    rewrite (scanner_args_credentialed_eq self version wd pf url v a s u p Hfrom).
    repeat split.
Qed.

Lemma variant_agreement_witness :
  let self := example_step example_config in
  let shared := ["-Dproject.settings=./sonar-project.properties";
                 "-Dsonar.host.url=https://sonar.example.com";
                 "-Dsonar.projectVersion=1.2.3";
                 "-Dsonar.projectKey=app:svc"] in
  scanner_args_anonymous self (VStr "1.2.3") "/work"
  = Return (shared ++ ["-Dsonar.working.directory=/work"])
  /\ (exists shared',
        shared ++ ["-Dsonar.working.directory=/work"]
        = shared' ++ ["-Dsonar.working.directory=/work"]
        /\ scanner_args_credentialed self (VStr "1.2.3") (VStr "u") (VStr "p")
             "/work"
           = Return (shared' ++ ["-Dsonar.login=u"; "-Dsonar.password=p"]
                     ++ ["-Dsonar.working.directory=/work"]))
  /\ (exists pf url v a s,
        scanner_args_anonymous self (VStr "1.2.3") "/work"
        = Return (shared_arguments pf url v a s
                  ++ ["-Dsonar.working.directory=/work"])).
Proof.
  intros self shared.
  assert (scanner_args_anonymous self (VStr "1.2.3") "/work"
          = Return (shared ++ ["-Dsonar.working.directory=/work"]))
    as Hn by (vm_compute; reflexivity).
  destruct (variant_agreement self (VStr "1.2.3") (VStr "u") (VStr "p")
              "/work") as [Hfrom Hto].
  destruct (Hto _ "u" "p" Hn eq_refl eq_refl) as (shared' & _ & Heq & Hc).
  destruct (Hfrom _ Hc) as (pf & url & v & a & s & u & p & Hshared).
  split; [exact Hn|]. split.
  - exists shared'. split; [exact Heq|exact Hc].
  - exists pf, url, v, a, s. exact (proj1 (proj2 (proj2 (proj2 Hshared)))).
Defined.

(** ** Credentials *)

Lemma credentials_dropped self :
  has_config_value self (keys AUTHENTICATION_CONFIG) = false
  \/ truthy (get_config_value self "user") = false
  \/ truthy (get_config_value self "password") = false ->
  credentials self = (VStr "", VStr "").
Proof.
  unfold credentials. intros [-> | [-> | ->]]; [reflexivity| |].
  - by destruct (has_config_value _ _).
  - rewrite andb_false_r. by destruct (has_config_value _ _).
Qed.

Lemma credentials_configured self u p :
  step_config self !! "user" = Some (VStr u) ->
  step_config self !! "password" = Some (VStr p) ->
  u <> "" -> p <> "" ->
  credentials self = (VStr u, VStr p).
Proof.
  intros Hu Hp Hune Hpne.
  unfold credentials, has_config_value, get_config_value, dict_get, contains.
  simpl. rewrite Hu, Hp. simpl.
  destruct u; [done|]. destruct p; [done|]. reflexivity.
Qed.

Lemma scanner_args_dropped self version :
  credentials self = (VStr "", VStr "") ->
  scanner_args self version
  = scanner_args_anonymous self version (get_working_dir self).
Proof. unfold scanner_args. by intros ->. Qed.

Lemma scanner_args_configured self version u p :
  credentials self = (VStr u, VStr p) -> u <> "" ->
  scanner_args self version
  = scanner_args_credentialed self version (VStr u) (VStr p)
      (get_working_dir self).
Proof.
  unfold scanner_args. intros -> Hne.
  case_bool_decide as Heq; [|reflexivity]. by injection Heq.
Qed.

Lemma prefix_append (s t : string) : String.prefix s (s +:+ t) = true.
Proof.
  induction s as [|c s IH]; [by destruct t|].
  change (String.prefix (String c s) (String c (s +:+ t)) = true).
  simpl. by destruct (Ascii.ascii_dec c c).
Qed.

(** The shared arguments and the working-directory argument set neither
    [sonar.login] nor [sonar.password]. *)
Lemma anonymous_arguments_filter pf url v a s wd :
  List.filter is_login_arg
    (shared_arguments pf url v a s ++ ["-Dsonar.working.directory=" +:+ wd])
  = []
  /\ List.filter is_password_arg
       (shared_arguments pf url v a s ++ ["-Dsonar.working.directory=" +:+ wd])
     = [].
Proof. split; reflexivity. Qed.

Lemma credentialed_arguments_filter pf url v a s u p wd :
  List.filter is_login_arg
    (shared_arguments pf url v a s
     ++ ["-Dsonar.login=" +:+ u; "-Dsonar.password=" +:+ p]
     ++ ["-Dsonar.working.directory=" +:+ wd])
  = ["-Dsonar.login=" +:+ u]
  /\ List.filter is_password_arg
       (shared_arguments pf url v a s
        ++ ["-Dsonar.login=" +:+ u; "-Dsonar.password=" +:+ p]
        ++ ["-Dsonar.working.directory=" +:+ wd])
     = ["-Dsonar.password=" +:+ p].
Proof.
  pose proof (prefix_append "-Dsonar.login=" u) as Hu.
  pose proof (prefix_append "-Dsonar.password=" p) as Hp.
  split.
  - change (List.filter is_login_arg ["-Dsonar.login=" +:+ u]
            = ["-Dsonar.login=" +:+ u]).
    unfold List.filter, is_login_arg. by rewrite Hu.
  - change (List.filter is_password_arg ["-Dsonar.password=" +:+ p]
            = ["-Dsonar.password=" +:+ p]).
    unfold List.filter, is_password_arg. by rewrite Hp.
Qed.

(** C4. Credential arguments.  Take any run of [_run_step] that invoked the
    scanner.  If the credentials are absent (one of the keys [user] and
    [password] is not in the configuration) the argument list is the four
    shared arguments followed by the working-directory argument and holds no
    login and no password argument.  If the credentials are present (both
    keys are configured with non-empty strings) the argument list holds
    exactly one login argument and one password argument, carrying the
    configured values, and the two stand immediately before the
    working-directory argument, which is last. *)
Theorem credential_arguments os self log r args :
  _run_step os self log = (r, log ++ [args]) ->
  ((contains (step_config self) "user" = false
    \/ contains (step_config self) "password" = false) ->
   exists shared,
     length shared = 4%nat
     /\ args = shared ++ [working_directory_argument self]
     /\ List.filter is_login_arg args = []
     /\ List.filter is_password_arg args = [])
  /\ (forall u p,
        step_config self !! "user" = Some (VStr u) ->
        step_config self !! "password" = Some (VStr p) ->
        u <> "" -> p <> "" ->
        exists shared,
          length shared = 4%nat
          /\ args = shared
                    ++ ["-Dsonar.login=" +:+ u; "-Dsonar.password=" +:+ p]
                    ++ [working_directory_argument self]
          /\ List.filter is_login_arg args = ["-Dsonar.login=" +:+ u]
          /\ List.filter is_password_arg args = ["-Dsonar.password=" +:+ p]).
Proof.
  intros Hrun.
  apply _run_step_invoked in Hrun as (version & _ & Hargs & _).
  split.
  - intros Habsent.
    rewrite scanner_args_dropped in Hargs.
    + apply scanner_args_anonymous_Return in Hargs
        as (pf & url & v & a & s & _ & ->).
      exists (shared_arguments pf url v a s).
      split; [reflexivity|]. split; [reflexivity|].
      apply anonymous_arguments_filter.
    + apply credentials_dropped. left.
      unfold has_config_value. simpl.
      destruct Habsent as [-> | ->]; [reflexivity|apply andb_false_r].
  - intros u p Hu Hp Hune Hpne.
    rewrite (scanner_args_configured self version u p) in Hargs;
      [|by apply credentials_configured|exact Hune].
    apply scanner_args_credentialed_Return in Hargs
      as (pf & url & v & a & s & u' & p' & _ & [= <-] & [= <-] & ->).
    exists (shared_arguments pf url v a s).
    split; [reflexivity|]. split; [reflexivity|].
    apply credentialed_arguments_filter.
Qed.

Lemma credential_arguments_witness :
  let os := example_os 0 in
  let anonymous := example_step example_config in
  let configured :=
    example_step (<["user" := VStr "u"]> (<["password" := VStr "p"]>
                    example_config)) in
  (exists r args,
     _run_step os anonymous [] = (r, [] ++ [args])
     /\ contains (step_config anonymous) "user" = false
     /\ List.filter is_login_arg args = []
     /\ List.filter is_password_arg args = [])
  /\ (exists r args,
        _run_step os configured [] = (r, [] ++ [args])
        /\ step_config configured !! "user" = Some (VStr "u")
        /\ step_config configured !! "password" = Some (VStr "p")
        /\ List.filter is_login_arg args = ["-Dsonar.login=u"]
        /\ List.filter is_password_arg args = ["-Dsonar.password=p"]).
Proof.
  intros os anonymous configured. split.
  - assert (contains (step_config anonymous) "user" = false) as Habsent
      by (vm_compute; reflexivity).
    eexists _, _. split; [vm_compute; reflexivity|].
    split; [exact Habsent|].
    destruct (proj1 (credential_arguments os anonymous [] _ _ eq_refl)
                (or_introl Habsent)) as (shared & _ & _ & Hlogin & Hpassword).
    split; [exact Hlogin|exact Hpassword].
  - assert (step_config configured !! "user" = Some (VStr "u")) as Hu
      by (vm_compute; reflexivity).
    assert (step_config configured !! "password" = Some (VStr "p")) as Hp
      by (vm_compute; reflexivity).
    eexists _, _. split; [vm_compute; reflexivity|].
    split; [exact Hu|]. split; [exact Hp|].
    destruct (proj2 (credential_arguments os configured [] _ _ eq_refl)
                "u" "p" Hu Hp ltac:(discriminate) ltac:(discriminate))
      as (shared & _ & _ & Hlogin & Hpassword).
    split; [exact Hlogin|exact Hpassword].
Defined.

Lemma required_properties_Return os self pf :
  required_properties os self = Return pf ->
  exists p,
    get_config_value self "properties" = VStr p /\ pf = VStr p
    /\ path_exists os p = true.
Proof.
  unfold required_properties.
  destruct (get_config_value self "properties") as [|p]; [done|].
  destruct (truthy (VStr p)), (path_exists os p) eqn:Hexists; simpl;
    try discriminate.
  intros [= <-]. by exists p.
Qed.

(** C9. Credential values against key presence.  When both keys [user] and
    [password] are in the configuration but one of the two values is empty or
    [None], the assertion of the validation holds, so validation passes
    whenever the required-keys rule does; the local [user] and [password]
    stay empty; every invocation of the scanner uses the non-credentialed
    argument list, with no login and no password argument; and when the
    other preconditions of the step hold (version, properties file, and
    [url], [application-name] and [service-name] strings) the scanner is
    invoked, with exactly that list. *)
Theorem empty_credentials_dropped os self vu vp :
  step_config self !! "user" = Some vu ->
  step_config self !! "password" = Some vp ->
  truthy vu = false \/ truthy vp = false ->
  credential_pair_assertion (step_config self) = true
  /\ (base_validate_runtime_step_config required_runtime_step_config_keys
        (step_config self) = Return tt ->
      _validate_runtime_step_config (step_config self) = Return tt)
  /\ credentials self = (VStr "", VStr "")
  /\ (forall log r args,
        _run_step os self log = (r, log ++ [args]) ->
        exists shared,
          length shared = 4%nat
          /\ args = shared ++ [working_directory_argument self]
          /\ List.filter is_login_arg args = []
          /\ List.filter is_password_arg args = [])
  /\ (forall log version pf url a s,
        required_version self = Return version ->
        required_properties os self = Return pf ->
        get_config_value self "url" = VStr url ->
        get_config_value self "application-name" = VStr a ->
        get_config_value self "service-name" = VStr s ->
        exists p v,
          pf = VStr p /\ version = VStr v
          /\ let args := shared_arguments p url v a s
                         ++ [working_directory_argument self] in
             _run_step os self log
             = (scanner_outcome os self args, log ++ [args])).
Proof.
  intros Hu Hp Hempty.
  assert (credential_pair_assertion (step_config self) = true) as Hassert.
  { apply credential_pair_assertion_spec. unfold contains. by rewrite Hu, Hp. }
  assert (credentials self = (VStr "", VStr "")) as Hcred.
  { apply credentials_dropped. right.
    unfold get_config_value, dict_get. rewrite Hu, Hp. simpl.
    destruct Hempty; [by left|by right]. }
  split; [exact Hassert|]. split; [|split; [exact Hcred|split]].
  - intros Hbase. unfold _validate_runtime_step_config.
    rewrite Hbase. simpl. by rewrite Hassert.
  - intros log r args Hrun.
    apply _run_step_invoked in Hrun as (version & _ & Hargs & _).
    rewrite (scanner_args_dropped self version Hcred) in Hargs.
    apply scanner_args_anonymous_Return in Hargs
      as (pf & url & v & a & s & _ & ->).
    exists (shared_arguments pf url v a s).
    split; [reflexivity|]. split; [reflexivity|].
    apply anonymous_arguments_filter.
  - intros log version pf url a s Hversion Hproperties Hurl Ha Hs.
    pose proof Hproperties as (p & Hpf & -> & _)%required_properties_Return.
    destruct (required_version_cases self) as [(v & Hv & _)|Hv];
      rewrite Hversion in Hv; [|discriminate].
    injection Hv as ->.
    exists p, v. split; [reflexivity|]. split; [reflexivity|].
    intros args.
    rewrite _run_step_unfold, Hversion, Hproperties.
    rewrite (scanner_args_dropped self (VStr v) Hcred).
    by rewrite (scanner_args_anonymous_eq self (VStr v) (get_working_dir self)
                  p url v a s).
Qed.

Lemma empty_credentials_dropped_witness :
  let os := example_os 0 in
  let self :=
    example_step (<["user" := VStr "u"]> (<["password" := VStr ""]>
                    example_config)) in
  step_config self !! "user" = Some (VStr "u")
  /\ step_config self !! "password" = Some (VStr "")
  /\ truthy (VStr "") = false
  /\ _validate_runtime_step_config (step_config self) = Return tt
  /\ _run_step os self []
     = (Return (success_results "/work"),
        [["-Dproject.settings=./sonar-project.properties";
          "-Dsonar.host.url=https://sonar.example.com";
          "-Dsonar.projectVersion=1.2.3";
          "-Dsonar.projectKey=app:svc";
          "-Dsonar.working.directory=/work"]]).
Proof.
  intros os self.
  assert (step_config self !! "user" = Some (VStr "u")) as Hu
    by (vm_compute; reflexivity).
  assert (step_config self !! "password" = Some (VStr "")) as Hp
    by (vm_compute; reflexivity).
  assert (truthy (VStr "") = false) as Hempty by reflexivity.
  destruct (empty_credentials_dropped os self _ _ Hu Hp (or_intror Hempty))
    as (_ & Hvalid & _ & _ & Hrun).
  split; [exact Hu|]. split; [exact Hp|]. split; [exact Hempty|].
  split; [apply Hvalid; vm_compute; reflexivity|].
  assert (required_version self = Return (VStr "1.2.3")) as Hversion
    by (vm_compute; reflexivity).
  assert (required_properties os self
          = Return (VStr "./sonar-project.properties")) as Hproperties
    by (vm_compute; reflexivity).
  destruct (Hrun [] _ _ "https://sonar.example.com" "app" "svc"
              Hversion Hproperties eq_refl eq_refl eq_refl)
    as (p & v & [= <-] & [= <-] & Heq).
  exact Heq.
Defined.

(** * Further properties of [_run_step] and of the validation *)

(** ** What the checks let through *)

Lemma required_version_Return self version :
  required_version self = Return version <->
  exists v, version = VStr v /\ v <> "" /\ version_entry self = Some (VStr v).
Proof.
  unfold required_version, version_entry.
  destruct (get_step_results self "generate-metadata") as [d|]; simpl;
    [|split; [done|by intros (? & _ & _ & ?)]].
  unfold dict_get, dict_index, dict_truthy.
  destruct (d !! "version") as [[|v]|] eqn:Hv; simpl.
  - rewrite andb_false_r. split; [done|]. by intros (? & _ & _ & [= ?]).
  - assert (dom d <> ∅) as Hdom.
    { intros Hempty. apply (not_elem_of_empty (C := gset string) "version").
      rewrite <- Hempty. apply elem_of_dom. eauto. }
    rewrite bool_decide_eq_false_2 by exact Hdom. simpl.
    destruct v as [|c v]; simpl.
    + split; [done|]. by intros (? & _ & ? & [= <-]).
    + split.
      * intros [= <-]. by exists (String c v).
      * by intros (? & -> & _ & [= <-]).
  - rewrite andb_false_r. split; [done|]. by intros (? & _ & _ & ?).
Qed.

Lemma required_version_raise self e :
  required_version self = Raise e ->
  e = ValueError
        "Severe error: Generate-metadata results is missing a version tag".
Proof.
  destruct (required_version_cases self) as [(v & -> & _)| ->]; congruence.
Qed.

Lemma required_properties_Return_iff os self pf :
  required_properties os self = Return pf <->
  exists p,
    pf = VStr p /\ p <> ""
    /\ get_config_value self "properties" = VStr p
    /\ path_exists os p = true.
Proof.
  unfold required_properties.
  destruct (get_config_value self "properties") as [|p]; simpl;
    [split; [done|by intros (? & _ & _ & ? & _)]|].
  destruct p as [|c p]; simpl.
  - split; [done|]. by intros (? & _ & ? & [= <-] & _).
  - destruct (path_exists os (String c p)) eqn:Hexists; simpl.
    + split.
      * intros [= <-]. by exists (String c p).
      * by intros (? & -> & _ & [= <-] & _).
    + split; [done|]. intros (? & _ & _ & [= <-] & ?). congruence.
Qed.

Lemma required_properties_raise os self e :
  required_properties os self = Raise e ->
  e = TypeError
  \/ exists p,
       get_config_value self "properties" = VStr p
       /\ e = ValueError ("Properties file in tssc config not found: " +:+ p).
Proof.
  unfold required_properties.
  destruct (get_config_value self "properties") as [|p]; simpl.
  - intros [= <-]. by left.
  - destruct p as [|c p]; simpl.
    + intros [= <-]. right. by exists "".
    + destruct (path_exists os (String c p)); simpl; [done|].
      intros [= <-]. right. by exists (String c p).
Qed.

(** After lines 218-225 the locals [user] and [password] are both empty or
    both the configured non-empty strings. *)
Lemma credentials_cases self :
  credentials self = (VStr "", VStr "")
  \/ exists u p,
       u <> "" /\ p <> ""
       /\ step_config self !! "user" = Some (VStr u)
       /\ step_config self !! "password" = Some (VStr p)
       /\ credentials self = (VStr u, VStr p).
Proof.
  unfold credentials, get_config_value, dict_get.
  destruct (has_config_value self _); [|by left].
  destruct (step_config self !! "user") as [[|[|c u]]|]; simpl; try by left.
  destruct (step_config self !! "password") as [[|[|d p]]|]; simpl;
    try by left.
  right. by exists (String c u), (String d p).
Qed.

Lemma login_arguments_cases self :
  (credentials self = (VStr "", VStr "") /\ login_arguments self = [])
  \/ exists u p,
       u <> "" /\ p <> ""
       /\ step_config self !! "user" = Some (VStr u)
       /\ step_config self !! "password" = Some (VStr p)
       /\ credentials self = (VStr u, VStr p)
       /\ login_arguments self
          = ["-Dsonar.login=" +:+ u; "-Dsonar.password=" +:+ p].
Proof.
  unfold login_arguments.
  destruct (credentials_cases self) as [Hc|(u & p & Hu & Hp & Hlu & Hlp & Hc)];
    rewrite Hc.
  - by left.
  - right. exists u, p. by rewrite bool_decide_eq_false_2.
Qed.

(** The assembled list, whichever call is taken, in terms of the data. *)
Lemma scanner_args_Return self version args :
  scanner_args self version = Return args <->
  exists pf url v a s,
    assembled_from self version pf url v a s
    /\ args = shared_arguments pf url v a s ++ login_arguments self
              ++ [working_directory_argument self].
Proof.
  unfold working_directory_argument.
  destruct (login_arguments_cases self)
    as [[Hc ->]|(u & p & Hu & _ & _ & _ & Hc & ->)].
  - rewrite (scanner_args_dropped self version Hc). split.
    + intros (pf & url & v & a & s & Hfrom & ->)%scanner_args_anonymous_Return.
      by exists pf, url, v, a, s.
    + intros (pf & url & v & a & s & Hfrom & ->).
      by apply scanner_args_anonymous_eq.
  - rewrite (scanner_args_configured self version u p Hc Hu). split.
    + intros (pf & url & v & a & s & u' & p' & Hfrom & [= <-] & [= <-] & ->)
        %scanner_args_credentialed_Return.
      by exists pf, url, v, a, s.
    + intros (pf & url & v & a & s & Hfrom & ->).
      by apply scanner_args_credentialed_eq.
Qed.

Lemma _run_step_invoked_iff os self log r args :
  _run_step os self log = (r, log ++ [args]) <->
  exists version pf,
    required_version self = Return version
    /\ required_properties os self = Return pf
    /\ scanner_args self version = Return args
    /\ r = scanner_outcome os self args.
Proof.
  rewrite _run_step_unfold. split.
  - assert (forall e, (Raise e, log) = (r, log ++ [args]) -> False) as Hstuck.
    { intros e [= _ Hlog]. rewrite <- (app_nil_r log) in Hlog at 1.
      apply app_inv_head in Hlog. discriminate. }
    destruct (required_version self) as [version|e];
      [|intros H; by destruct (Hstuck _ H)].
    destruct (required_properties os self) as [pf|e];
      [|intros H; by destruct (Hstuck _ H)].
    destruct (scanner_args self version) as [args'|e] eqn:Hargs;
      [|intros H; by destruct (Hstuck _ H)].
    intros [= <- Hlog]. apply app_inv_head in Hlog as [= ->].
    exists version, pf. repeat split. exact Hargs.
  - intros (version & pf & -> & -> & -> & ->). reflexivity.
Qed.

(** ** When the scanner runs, and what can come out *)

(** X1. The scanner is invoked with [args] exactly when the
    [generate-metadata] version and the [properties] value are non-empty
    strings, the properties file exists, [url], [application-name] and
    [service-name] are strings, and [args] is the list of the four shared
    arguments, the credential arguments if any, and the working-directory
    argument. *)
Theorem scanner_invoked_iff os self log args :
  (exists r, _run_step os self log = (r, log ++ [args])) <->
  exists v p url a s,
    version_entry self = Some (VStr v) /\ v <> ""
    /\ get_config_value self "properties" = VStr p /\ p <> ""
    /\ path_exists os p = true
    /\ get_config_value self "url" = VStr url
    /\ get_config_value self "application-name" = VStr a
    /\ get_config_value self "service-name" = VStr s
    /\ args = shared_arguments p url v a s ++ login_arguments self
              ++ [working_directory_argument self].
Proof.
  split.
  - intros [r Hrun].
    apply _run_step_invoked_iff in Hrun
      as (version & pf & Hversion & Hproperties & Hargs & _).
    apply required_version_Return in Hversion as (v & -> & Hv & Hentry).
    apply required_properties_Return_iff in Hproperties
      as (p & -> & Hp & Hpf & Hexists).
    apply scanner_args_Return in Hargs
      as (pf' & url & v' & a & s & (Hpf' & Hurl & [= <-] & Ha & Hs) & ->).
    rewrite Hpf in Hpf'. injection Hpf' as <-.
    by exists v, p, url, a, s.
  - intros (v & p & url & a & s & Hentry & Hv & Hpf & Hp & Hexists & Hurl & Ha
            & Hs & ->).
    exists (scanner_outcome os self
              (shared_arguments p url v a s ++ login_arguments self
               ++ [working_directory_argument self])).
    apply _run_step_invoked_iff. exists (VStr v), (VStr p).
    split; [apply required_version_Return; by exists v|].
    split; [apply required_properties_Return_iff; by exists p|].
    split; [|reflexivity].
    apply scanner_args_Return. by exists p, url, v, a, s.
Qed.

Lemma scanner_invoked_iff_witness :
  let os := example_os 2 in
  let self :=
    example_step (<["user" := VStr "u"]> (<["password" := VStr "p"]>
                    example_config)) in
  exists r,
    _run_step os self []
    = (r, [] ++ [["-Dproject.settings=./sonar-project.properties";
                  "-Dsonar.host.url=https://sonar.example.com";
                  "-Dsonar.projectVersion=1.2.3";
                  "-Dsonar.projectKey=app:svc";
                  "-Dsonar.login=u";
                  "-Dsonar.password=p";
                  "-Dsonar.working.directory=/work"]]).
Proof.
  intros os self.
  apply (proj2 (scanner_invoked_iff os self [] _)).
  exists "1.2.3", "./sonar-project.properties", "https://sonar.example.com",
    "app", "svc".
  repeat split; try discriminate; vm_compute; reflexivity.
Defined.

(** X3. Credentials go to the scanner all or nothing.  In every invocation
    either there is no login and no password argument and the list has five
    arguments, or there is exactly one of each, both carrying the configured,
    non-empty values, and the list has seven arguments: a login is never sent
    without a password, nor an empty one. *)
Theorem credentials_all_or_nothing os self log r args :
  _run_step os self log = (r, log ++ [args]) ->
  (List.filter is_login_arg args = []
   /\ List.filter is_password_arg args = []
   /\ length args = 5%nat)
  \/ (exists u p,
        u <> "" /\ p <> ""
        /\ step_config self !! "user" = Some (VStr u)
        /\ step_config self !! "password" = Some (VStr p)
        /\ List.filter is_login_arg args = ["-Dsonar.login=" +:+ u]
        /\ List.filter is_password_arg args = ["-Dsonar.password=" +:+ p]
        /\ length args = 7%nat).
Proof.
  intros Hrun.
  apply _run_step_invoked_iff in Hrun as (version & pf & _ & _ & Hargs & _).
  apply scanner_args_Return in Hargs as (p & url & v & a & s & _ & ->).
  unfold working_directory_argument.
  destruct (login_arguments_cases self)
    as [[_ ->]|(u & pw & Hu & Hpw & Hlu & Hlp & _ & ->)].
  - left. split; [|split; [|reflexivity]];
      apply (anonymous_arguments_filter p url v a s).
  - right. exists u, pw.
    destruct (credentialed_arguments_filter p url v a s u pw
                (get_working_dir self)) as [Hlogin Hpassword].
    by repeat split.
Qed.

Lemma credentials_all_or_nothing_witness :
  let os := example_os 0 in
  let self :=
    example_step (<["user" := VStr "u"]> (<["password" := VStr "p"]>
                    example_config)) in
  exists r args,
    _run_step os self [] = (r, [] ++ [args])
    /\ List.filter is_login_arg args = ["-Dsonar.login=u"]
    /\ List.filter is_password_arg args = ["-Dsonar.password=p"].
Proof.
  intros os self.
  eexists _, _. split; [vm_compute; reflexivity|].
  destruct (credentials_all_or_nothing os self [] _ _ eq_refl)
    as [(Hnone & _)|(u & p & _ & _ & Hu & Hp & Hlogin & Hpassword & _)].
  - vm_compute in Hnone. discriminate.
  - injection Hu as <-. injection Hp as <-.
    split; [exact Hlogin|exact Hpassword].
Defined.

(** ** What [_run_step] reads *)

(** Two step objects on which the locals of lines 218-225, the four other
    configuration values, the version check and the working directory agree
    run alike. *)
Lemma _run_step_agree os self self' log :
  credentials self = credentials self' ->
  get_config_value self "properties" = get_config_value self' "properties" ->
  get_config_value self "url" = get_config_value self' "url" ->
  get_config_value self "application-name"
    = get_config_value self' "application-name" ->
  get_config_value self "service-name"
    = get_config_value self' "service-name" ->
  required_version self = required_version self' ->
  working_dir self = working_dir self' ->
  _run_step os self log = _run_step os self' log.
Proof.
  intros Hc Hpf Hurl Ha Hs Hversion Hwd.
  rewrite !_run_step_unfold.
  assert (required_properties os self = required_properties os self') as ->
    by (unfold required_properties; by rewrite Hpf).
  assert (forall version,
            scanner_args self version = scanner_args self' version) as Hargs.
  { intros version.
    unfold scanner_args, scanner_args_anonymous, scanner_args_credentialed,
      get_working_dir.
    by rewrite Hc, Hpf, Hurl, Ha, Hs, Hwd. }
  rewrite Hversion.
  destruct (required_version self') as [version|]; [|reflexivity].
  destruct (required_properties os self'); [|reflexivity].
  rewrite Hargs. unfold scanner_outcome. by rewrite Hwd.
Qed.

Lemma required_version_agree self self' :
  version_entry self = version_entry self' ->
  required_version self = required_version self'.
Proof.
  intros Hentry.
  destruct (required_version self) as [version|e] eqn:Hv;
    destruct (required_version self') as [version'|e'] eqn:Hv'.
  - apply required_version_Return in Hv as (v & -> & _ & Hv).
    apply required_version_Return in Hv' as (v' & -> & _ & Hv').
    congruence.
  - apply required_version_Return in Hv as (v & -> & Hne & Hv).
    rewrite Hentry in Hv.
    assert (required_version self' = Return (VStr v)) as Hret
      by (apply required_version_Return; by exists v).
    congruence.
  - apply required_version_Return in Hv' as (v & -> & Hne & Hv').
    rewrite <- Hentry in Hv'.
    assert (required_version self = Return (VStr v)) as Hret
      by (apply required_version_Return; by exists v).
    congruence.
  - apply required_version_raise in Hv, Hv'. congruence.
Qed.

(** X4. The footprint of [_run_step]: the method reads six configuration
    keys, the [version] entry of the [generate-metadata] result and the
    working directory, and nothing else.  Two step objects that agree on
    these run alike, whatever other configuration keys, other fields of the
    [generate-metadata] result or results of other steps they hold. *)
Theorem _run_step_reads_only os self self' log :
  Forall (fun key => step_config self !! key = step_config self' !! key)
         CONFIG_KEYS_READ ->
  version_entry self = version_entry self' ->
  working_dir self = working_dir self' ->
  _run_step os self log = _run_step os self' log.
Proof.
  intros Hkeys Hentry Hwd. unfold CONFIG_KEYS_READ in Hkeys.
  apply Forall_cons in Hkeys as [Hpf Hkeys].
  apply Forall_cons in Hkeys as [Hurl Hkeys].
  apply Forall_cons in Hkeys as [Ha Hkeys].
  apply Forall_cons in Hkeys as [Hs Hkeys].
  apply Forall_cons in Hkeys as [Hu Hkeys].
  apply Forall_cons in Hkeys as [Hp _].
  simpl in Hpf, Hurl, Ha, Hs, Hu, Hp.
  apply _run_step_agree; try exact Hwd;
    unfold credentials, has_config_value, get_config_value, dict_get, contains;
    simpl; try congruence.
  - by rewrite Hu, Hp.
  - by apply required_version_agree.
Qed.

Lemma _run_step_reads_only_witness :
  let self := example_step example_config in
  let self' :=
    {| step_config := <["verbose" := VStr "yes"]> example_config;
       step_results :=
         <["generate-metadata" :=
             <["version" := VStr "1.2.3"]> (<["image-tag" := VStr "1.2.3"]> ∅)]>
         (<["package" := ∅]> ∅);
       working_dir := "/work" |} in
  _run_step (example_os 0) self [] = _run_step (example_os 0) self' [].
Proof.
  intros self self'.
  apply (_run_step_reads_only (example_os 0) self self' []).
  - repeat constructor.
  - vm_compute. reflexivity.
  - reflexivity.
Defined.

(** X5. A credential pair with an empty or [None] value is ignored
    altogether: the run is the very run of the step object without the two
    keys, in its result and in the invocation it makes. *)
Theorem empty_credentials_as_removed os self log :
  truthy (get_config_value self "user") = false
  \/ truthy (get_config_value self "password") = false ->
  _run_step os self log = _run_step os (without_credentials self) log.
Proof.
  intros Hempty.
  assert (forall key,
            key <> "user" -> key <> "password" ->
            get_config_value self key
            = get_config_value (without_credentials self) key) as Hget.
  { intros key Hu Hp. unfold get_config_value, dict_get. simpl.
    by rewrite !lookup_delete_ne. }
  apply _run_step_agree; try reflexivity; try (by apply Hget).
  rewrite (credentials_dropped self) by auto.
  symmetry. apply credentials_dropped. right. left.
  unfold get_config_value, dict_get. simpl. by rewrite lookup_delete_eq.
Qed.

Lemma empty_credentials_as_removed_witness :
  let self :=
    example_step (<["user" := VStr "u"]> (<["password" := VNone]>
                    example_config)) in
  truthy (get_config_value self "password") = false
  /\ _run_step (example_os 0) self []
     = _run_step (example_os 0) (without_credentials self) [].
Proof.
  intros self.
  assert (truthy (get_config_value self "password") = false) as Hempty
    by (vm_compute; reflexivity).
  split; [exact Hempty|].
  apply (empty_credentials_as_removed (example_os 0) self []).
  right. exact Hempty.
Defined.

(** X6. A required value that is missing is never defaulted.  When [url],
    [application-name] or [service-name] reads as [None] (absent, or set to
    null), [_run_step] raises and the scanner is not invoked; once the
    version and properties checks have passed the exception is the
    [TypeError] of the concatenation, which the [except] clause of lines
    272-273 does not catch. *)
Theorem missing_required_value_raises os self log :
  get_config_value self "url" = VNone
  \/ get_config_value self "application-name" = VNone
  \/ get_config_value self "service-name" = VNone ->
  (exists e, _run_step os self log = (Raise e, log))
  /\ forall version pf,
       required_version self = Return version ->
       required_properties os self = Return pf ->
       _run_step os self log = (Raise TypeError, log).
Proof.
  intros Hmissing.
  assert (forall version, scanner_args self version = Raise TypeError)
    as Hargs.
  { intros version.
    destruct (scanner_args self version) as [args|e] eqn:Hargs.
    - apply scanner_args_Return in Hargs
        as (pf & url & v & a & s & (_ & Hurl & _ & Ha & Hs) & _).
      destruct Hmissing as [H|[H|H]]; congruence.
    - by apply scanner_args_raise in Hargs as ->. }
  split.
  - rewrite _run_step_unfold.
    destruct (required_version self); [|eauto].
    destruct (required_properties os self); [|eauto].
    rewrite Hargs. eauto.
  - intros version pf Hversion Hproperties.
    by rewrite _run_step_unfold, Hversion, Hproperties, Hargs.
Qed.

Lemma missing_required_value_raises_witness :
  let self := example_step (delete "url" example_config) in
  get_config_value self "url" = VNone
  /\ _run_step (example_os 0) self [] = (Raise TypeError, []).
Proof.
  intros self.
  assert (get_config_value self "url" = VNone) as Hurl
    by (vm_compute; reflexivity).
  split; [exact Hurl|].
  apply (proj2 (missing_required_value_raises (example_os 0) self []
                  (or_introl Hurl))
           (VStr "1.2.3") (VStr "./sonar-project.properties"));
    vm_compute; reflexivity.
Defined.

(** X7. A result is returned only after the scanner ran and exited with
    status zero, and the report it names lies in the very directory that was
    handed to the scanner as its working directory, the last argument of the
    call. *)
Theorem returned_result_follows_scanner os self log results log' :
  _run_step os self log = (Return results, log') ->
  exists args,
    log' = log ++ [args]
    /\ fst (sonar_scanner os args) = 0
    /\ last args = Some ("-Dsonar.working.directory=" +:+ get_working_dir self)
    /\ artifact_path <$> results_report_artifacts results
       = ["file://" +:+ get_working_dir self +:+ "/report-task.txt"].
Proof.
  rewrite _run_step_unfold.
  destruct (required_version self) as [version|]; [|done].
  destruct (required_properties os self) as [properties_file|]; [|done].
  destruct (scanner_args self version) as [args|] eqn:Hargs; [|done].
  unfold scanner_outcome.
  destruct (Z.eqb_spec (fst (sonar_scanner os args)) 0) as [Hz|]; [|done].
  intros [= <- <-]. exists args. split; [reflexivity|]. split; [exact Hz|].
  split; [|reflexivity].
  apply scanner_args_Return in Hargs as (pf & url & v & a & s & _ & ->).
  by rewrite !app_assoc, last_snoc.
Qed.

Lemma returned_result_follows_scanner_witness :
  let os := example_os 0 in
  let self := example_step example_config in
  exists results log' args,
    _run_step os self [] = (Return results, log')
    /\ log' = [] ++ [args]
    /\ last args = Some "-Dsonar.working.directory=/work"
    /\ artifact_path <$> results_report_artifacts results
       = ["file:///work/report-task.txt"].
Proof.
  intros os self.
  eexists _, _.
  assert (_run_step os self []
          = (Return (success_results "/work"), snd (_run_step os self [])))
    as Hrun by (vm_compute; reflexivity).
  destruct (returned_result_follows_scanner os self [] _ _ Hrun)
    as (args & Hlog & _ & Hlast & Hpath).
  exists args. split; [exact Hrun|]. split; [exact Hlog|].
  split; [exact Hlast|exact Hpath].
Defined.

(** ** The project key *)

Lemma colon_split (a a' s s' : string) :
  colon_free a = true -> colon_free a' = true ->
  a +:+ ":" +:+ s = a' +:+ ":" +:+ s' ->
  a = a' /\ s = s'.
Proof.
  revert a'. induction a as [|c a IH]; intros [|c' a'] Ha Ha' Heq.
  - by injection Heq.
  - change (String ":" s = String c' (a' +:+ ":" +:+ s')) in Heq.
    injection Heq as <- _. discriminate.
  - change (String c (a +:+ ":" +:+ s) = String ":" s') in Heq.
    injection Heq as -> _. discriminate.
  - change (String c (a +:+ ":" +:+ s) = String c' (a' +:+ ":" +:+ s'))
      in Heq.
    injection Heq as -> Heq.
    simpl in Ha, Ha'.
    apply andb_true_iff in Ha as [_ Ha]. apply andb_true_iff in Ha' as [_ Ha'].
    destruct (IH a' Ha Ha' Heq) as [-> ->]. done.
Qed.

(** The fourth argument of an invocation, in terms of the configuration. *)
Lemma invoked_project_key os self log r args :
  _run_step os self log = (r, log ++ [args]) ->
  exists a s,
    get_config_value self "application-name" = VStr a
    /\ get_config_value self "service-name" = VStr s
    /\ args !! 3%nat = Some ("-Dsonar.projectKey=" +:+ (a +:+ ":" +:+ s)).
Proof.
  intros Hrun.
  apply _run_step_invoked_iff in Hrun as (version & pf & _ & _ & Hargs & _).
  apply scanner_args_Return in Hargs
    as (p & url & v & a & s & (_ & _ & _ & Ha & Hs) & ->).
  by exists a, s.
Qed.

(** X8. The project key can be decoded when application names hold no
    colon: two invocations, of any two step objects, that carry the same
    project-key argument come from the same [application-name] and the same
    [service-name], provided neither application name contains a colon. *)
Theorem project_key_decodes os self log r args os' self' log' r' args' :
  _run_step os self log = (r, log ++ [args]) ->
  _run_step os' self' log' = (r', log' ++ [args']) ->
  args !! 3%nat = args' !! 3%nat ->
  exists a s a' s',
    get_config_value self "application-name" = VStr a
    /\ get_config_value self "service-name" = VStr s
    /\ get_config_value self' "application-name" = VStr a'
    /\ get_config_value self' "service-name" = VStr s'
    /\ (colon_free a = true -> colon_free a' = true -> a = a' /\ s = s').
Proof.
  intros (a & s & Ha & Hs & Hkey)%invoked_project_key
         (a' & s' & Ha' & Hs' & Hkey')%invoked_project_key Heq.
  exists a, s, a', s'. repeat (split; [assumption|]).
  intros Hfree Hfree'.
  rewrite Hkey, Hkey' in Heq. injection Heq as Heq.
  change (a +:+ ":" +:+ s = a' +:+ ":" +:+ s') in Heq.
  by apply colon_split.
Qed.

Lemma project_key_decodes_witness :
  let os := example_os 0 in
  let self := example_step example_config in
  let self' :=
    example_step (<["user" := VStr "u"]> (<["password" := VStr "p"]>
                    example_config)) in
  exists r args r' args',
    _run_step os self [] = (r, [] ++ [args])
    /\ _run_step os self' [] = (r', [] ++ [args'])
    /\ args !! 3%nat = args' !! 3%nat
    /\ get_config_value self "service-name"
       = get_config_value self' "service-name".
Proof.
  intros os self self'.
  eexists _, _, _, _.
  split; [vm_compute; reflexivity|]. split; [vm_compute; reflexivity|].
  split; [reflexivity|].
  destruct (project_key_decodes os self [] _ _ os self' [] _ _
              eq_refl eq_refl eq_refl)
    as (a & s & a' & s' & Ha & Hs & Ha' & Hs' & Hdecode).
  injection Ha as <-. injection Ha' as <-.
  destruct (Hdecode eq_refl eq_refl) as [_ Heq].
  rewrite Hs, Hs'. by rewrite Heq.
Defined.

(** Without that proviso the key is ambiguous. *)
Example project_key_ambiguous :
  let self := example_step (<["application-name" := VStr "a:b"]>
                (<["service-name" := VStr "c"]> example_config)) in
  let self' := example_step (<["application-name" := VStr "a"]>
                 (<["service-name" := VStr "b:c"]> example_config)) in
  snd (_run_step (example_os 0) self [])
  = snd (_run_step (example_os 0) self' []).
Proof. vm_compute. reflexivity. Qed.

(** ** The project key, in both calls *)

(** C5. Project key.  The project-key argument is "-Dsonar.projectKey="
    followed by the configured [application-name], a single colon and the
    configured [service-name], with nothing else, and that in each of the two
    calls of the source.
    - In every run of [_run_step] that invoked the scanner the two values are
      strings, the fourth argument is that key and no other argument sets
      [sonar.projectKey].
    - Each of the two argument lists (lines 244-255 and lines 257-270), when
      the values it concatenates are strings, is assembled and carries that
      key as its fourth argument.
    - When the preconditions of the step hold the scanner is invoked, with or
      without credentials, and the fourth argument of the invocation is that
      key. *)
Theorem project_key_argument os self log :
  (forall r args,
     _run_step os self log = (r, log ++ [args]) ->
     exists a s,
       get_config_value self "application-name" = VStr a
       /\ get_config_value self "service-name" = VStr s
       /\ args !! 3%nat = Some ("-Dsonar.projectKey=" +:+ (a +:+ ":" +:+ s))
       /\ List.filter (String.prefix "-Dsonar.projectKey=") args
          = ["-Dsonar.projectKey=" +:+ (a +:+ ":" +:+ s)])
  /\ (forall pf url v a s u pw wd,
        assembled_from self (VStr v) pf url v a s ->
        (exists args,
           scanner_args_anonymous self (VStr v) wd = Return args
           /\ length args = 5%nat
           /\ args !! 3%nat
              = Some ("-Dsonar.projectKey=" +:+ (a +:+ ":" +:+ s)))
        /\ (exists args,
              scanner_args_credentialed self (VStr v) (VStr u) (VStr pw) wd
              = Return args
              /\ length args = 7%nat
              /\ args !! 3%nat
                 = Some ("-Dsonar.projectKey=" +:+ (a +:+ ":" +:+ s))))
  /\ (forall pf url v a s,
        version_entry self = Some (VStr v) -> v <> "" ->
        get_config_value self "properties" = VStr pf -> pf <> "" ->
        path_exists os pf = true ->
        get_config_value self "url" = VStr url ->
        get_config_value self "application-name" = VStr a ->
        get_config_value self "service-name" = VStr s ->
        exists args,
          _run_step os self log
          = (scanner_outcome os self args, log ++ [args])
          /\ length args = (5 + length (login_arguments self))%nat
          /\ args !! 3%nat
             = Some ("-Dsonar.projectKey=" +:+ (a +:+ ":" +:+ s))).
Proof.
  split; [|split].
  - intros r args Hrun.
    apply _run_step_invoked_iff in Hrun as (version & pf & _ & _ & Hargs & _).
    apply scanner_args_Return in Hargs
      as (p & url & v & a & s & (_ & _ & _ & Ha & Hs) & ->).
    exists a, s. split; [exact Ha|]. split; [exact Hs|].
    pose proof (prefix_append "-Dsonar.projectKey=" (a +:+ ":" +:+ s)) as Hkey.
    unfold working_directory_argument.
    destruct (login_arguments_cases self)
      as [[_ ->]|(u & pw & _ & _ & _ & _ & _ & ->)].
    + split; [reflexivity|].
      change (List.filter (String.prefix "-Dsonar.projectKey=")
                ["-Dsonar.projectKey=" +:+ (a +:+ ":" +:+ s)]
              = ["-Dsonar.projectKey=" +:+ (a +:+ ":" +:+ s)]).
      unfold List.filter. by rewrite Hkey.
    + split; [reflexivity|].
      change (List.filter (String.prefix "-Dsonar.projectKey=")
                ["-Dsonar.projectKey=" +:+ (a +:+ ":" +:+ s)]
              = ["-Dsonar.projectKey=" +:+ (a +:+ ":" +:+ s)]).
      unfold List.filter. by rewrite Hkey.
  - intros pf url v a s u pw wd Hfrom. split.
    + eexists. split; [by apply scanner_args_anonymous_eq|].
      split; reflexivity.
    + eexists. split; [by apply scanner_args_credentialed_eq|].
      split; reflexivity.
  - intros pf url v a s Hentry Hv Hpf Hpfne Hexists Hurl Ha Hs.
    exists (shared_arguments pf url v a s ++ login_arguments self
            ++ [working_directory_argument self]).
    split; [|split].
    + apply _run_step_invoked_iff. exists (VStr v), (VStr pf).
      split; [apply required_version_Return; by exists v|].
      split; [apply required_properties_Return_iff; by exists pf|].
      split; [|reflexivity].
      apply scanner_args_Return. by exists pf, url, v, a, s.
    + rewrite !length_app. simpl. lia.
    + reflexivity.
Qed.

Lemma project_key_argument_witness :
  let os := example_os 0 in
  let anonymous := example_step example_config in
  let configured :=
    example_step (<["user" := VStr "u"]> (<["password" := VStr "p"]>
                    example_config)) in
  (exists r args,
     _run_step os anonymous [] = (r, [] ++ [args])
     /\ args !! 3%nat = Some "-Dsonar.projectKey=app:svc")
  /\ (exists args,
        scanner_args_credentialed configured (VStr "1.2.3") (VStr "u")
          (VStr "p") "/work" = Return args
        /\ length args = 7%nat
        /\ args !! 3%nat = Some "-Dsonar.projectKey=app:svc")
  /\ (exists args,
        _run_step os configured []
        = (scanner_outcome os configured args, [] ++ [args])
        /\ length args = 7%nat
        /\ args !! 3%nat = Some "-Dsonar.projectKey=app:svc").
Proof.
  intros os anonymous configured.
  destruct (project_key_argument os anonymous []) as (Hinvoked & _ & _).
  destruct (project_key_argument os configured []) as (_ & Hlists & Hruns).
  split; [|split].
  - eexists _, _. split; [vm_compute; reflexivity|].
    destruct (Hinvoked _ _ eq_refl) as (a & s & Ha & Hs & Hkey & _).
    injection Ha as <-. injection Hs as <-. exact Hkey.
  - assert (assembled_from configured (VStr "1.2.3")
              "./sonar-project.properties" "https://sonar.example.com"
              "1.2.3" "app" "svc") as Hfrom
      by (repeat split; vm_compute; reflexivity).
    exact (proj2 (Hlists _ _ _ _ _ "u" "p" "/work" Hfrom)).
  - assert (version_entry configured = Some (VStr "1.2.3")) as Hentry
      by (vm_compute; reflexivity).
    assert (get_config_value configured "properties"
            = VStr "./sonar-project.properties") as Hpf
      by (vm_compute; reflexivity).
    assert (get_config_value configured "url"
            = VStr "https://sonar.example.com") as Hurl
      by (vm_compute; reflexivity).
    assert (get_config_value configured "application-name" = VStr "app")
      as Ha by (vm_compute; reflexivity).
    assert (get_config_value configured "service-name" = VStr "svc")
      as Hs by (vm_compute; reflexivity).
    exact (Hruns _ _ _ _ _ Hentry ltac:(discriminate) Hpf ltac:(discriminate)
             eq_refl Hurl Ha Hs).
Defined.
